(** * tools/basetool.py: [execute_code] and [execute_command]

    A shallow embedding of the two tool bindings of [src/tools/basetool.py],
    of the top level of the module, and of the part of the Python runtime
    they call ([os.path.join], [os.getenv], [open(path, 'w')],
    [file.write], [subprocess.run], [print], [os.path.exists],
    [os.makedirs], [load_dotenv] and [logger]).

    The operating system is explicit state: a file system ([files]: what
    each path names and what the regular files hold) and the
    chronological list of the calls made ([trace]).  What the platform
    decides (whether [open], [write] or [print] raises, what a child
    process does and returns) is a [World] of oracles the functions are
    parameterised by.  Logging is recorded in the trace and never
    raises. *)

From Stdlib Require Import ZArith Ascii String.
From stdpp Require Import base strings gmap list.

Local Open Scope Z_scope.

(** ** Python data *)

(** The exception classes the runtime calls of this module raise, and
    the two classes that derive from [BaseException] only, which
    [except Exception] lets pass. *)
Inductive exc_class : Type :=
  | FileNotFoundError
  | PermissionError
  | IsADirectoryError
  | OSError
  | ValueError
  | UnicodeError
  | MemoryError
  | KeyboardInterrupt
  | SystemExit.

(** [issubclass(c, Exception)] *)
Definition derives_from_Exception (c : exc_class) : bool :=
  match c with
  | KeyboardInterrupt | SystemExit => false
  | _ => true
  end.

(** An exception instance: its class and [str(e)]. *)
Record py_exc : Type := PyExc {
  exc_cls : exc_class;
  exc_str : string
}.

(** [subprocess.CompletedProcess] with [text=True]. *)
Record CompletedProcess : Type := Completed {
  returncode : Z;
  stdout : string;
  stderr : string
}.

(** The [args] of [subprocess.run]: an argument vector, or a command
    string for [shell=True] together with [executable]. *)
Inductive popen_args : Type :=
  | Argv (argv : list string)
  | Shell (command executable : string).

(** What [subprocess.run(..., check=True)] raises. *)
Inductive run_exc : Type :=
  | CalledProcessError (args : popen_args) (cp : CompletedProcess)
  | RunFault (e : py_exc).

(** The calls the module makes on the outside. *)
Inductive event : Type :=
  | EvOpen (path : string)
  | EvWrite (path data : string)
  | EvRun (args : popen_args)
  | EvLog (level msg : string)
  | EvPrint (text : string).

(** ** The operating system *)

(** The file system: what each path names, and what the regular files
    hold. [names] gives the regular file a path stands for, one identity
    for all the spellings of it (["plot.py"] and ["./plot.py"]), whether
    the file exists yet or not, and [None] for a path that stands for a
    device, a pipe or a directory, which keeps nothing written to it.
    [contents] holds the existing regular files by identity. *)
Record FS : Type := MkFS {
  names : string → option string;
  contents : gmap string string
}.

(** What a path holds: nothing if it names no existing regular file. *)
Definition read_file (fs : FS) (path : string) : option string :=
  match names fs path with
  | Some k => contents fs !! k
  | None => None
  end.

(** The file system with [data] as the content of the file at [path]. *)
Definition put_file (path data : string) (fs : FS) : FS :=
  match names fs path with
  | Some k => {| names := names fs; contents := <[k := data]> (contents fs) |}
  | None => fs
  end.

Record OS : Type := MkOS {
  files : FS;
  trace : list event
}.

Record World : Type := MkWorld {
  (** the exception [open(path, 'w')] raises, if any *)
  open_fault : string → FS → option py_exc;
  (** the exception [file.write(data)] (or the close) raises, if any,
      with the number of characters that reached the file before it *)
  write_fault : string → string → FS → option (py_exc * nat);
  (** a child process: the file system it leaves, and either the
      exception [subprocess.run] raises (the program could not be
      started, or with [text=True] its output could not be decoded) or
      the completed process *)
  spawn : popen_args → FS → FS * (py_exc + CompletedProcess);
  (** the exception [print(text)] raises, if any *)
  print_fault : string → option py_exc
}.

(** ** A state and exception monad *)

Inductive res (E A : Type) : Type :=
  | Returned (a : A)
  | Raised (e : E).
Arguments Returned {E A} a.
Arguments Raised {E A} e.

Definition M (E A : Type) : Type := OS → res E A * OS.

#[global] Instance M_ret {E} : MRet (M E) :=
  λ A (a : A) s, (Returned a, s).

#[global] Instance M_bind {E} : MBind (M E) :=
  λ A B (f : A → M E B) (m : M E A) s,
    match m s with
    | (Returned a, s') => f a s'
    | (Raised e, s') => (Raised e, s')
    end.

Definition raise {E A} (e : E) : M E A := λ s, (Raised e, s).

(** [try: body  except ... as e: h e]; the handler [h] raises [e] again
    when no [except] clause matches its class. *)
Definition try_except {E E' A} (body : M E A) (h : E → M E' A) : M E' A :=
  λ s,
    match body s with
    | (Returned a, s') => (Returned a, s')
    | (Raised e, s') => h e s'
    end.

Definition emit {E} (ev : event) : M E unit :=
  λ s, (Returned (), {| files := files s; trace := trace s ++ [ev] |}).

Definition set_files {E} (fs : FS) : M E unit :=
  λ s, (Returned (), {| files := fs; trace := trace s |}).

Definition get_files {E} : M E FS :=
  λ s, (Returned (files s), s).

(** ** The runtime calls *)

(** [os.getenv(key, default)] *)
Definition os_getenv (environ : gmap string string) (key default : string)
    : string :=
  match environ !! key with
  | Some v => v
  | None => default
  end.

(** [s.endswith('/')] *)
Fixpoint endswith_sep (s : string) : bool :=
  match s with
  | EmptyString => false
  | String c EmptyString => bool_decide (c = "/"%char)
  | String _ s' => endswith_sep s'
  end.

(** [s.startswith('/')] *)
Definition startswith_sep (s : string) : bool :=
  match s with
  | String c _ => bool_decide (c = "/"%char)
  | EmptyString => false
  end.

(** [os.path.join(a, b)] of [posixpath]: an absolute [b] replaces [a]. *)
Definition os_path_join (a b : string) : string :=
  if startswith_sep b then b
  else if bool_decide (a = "") || endswith_sep a then a +:+ b
  else a +:+ "/" +:+ b.

Definition logger_info {E} (msg : string) : M E unit := emit (EvLog "INFO" msg).

Definition logger_error {E} (msg : string) : M E unit := emit (EvLog "ERROR" msg).

Definition logger_exception {E} (msg : string) : M E unit :=
  emit (EvLog "ERROR" msg).

(** [print(text)] on the standard output, which may refuse the text
    (an encoding that lacks a character, a closed stream). *)
Definition print (w : World) (text : string) : M py_exc unit :=
  emit (EvPrint text);;
  match print_fault w text with
  | Some e => raise e
  | None => mret ()
  end.

(** [open(path, 'w')]: creates the file or truncates it. *)
Definition py_open_w (w : World) (path : string) : M py_exc unit :=
  emit (EvOpen path);;
  fs ← get_files;
  match open_fault w path fs with
  | Some e => raise e
  | None => set_files (put_file path "" fs)
  end.

(** [code_file.write(data)] and the close at the end of the [with]
    block: the data goes after what the file holds; when the write
    raises, the characters already written stay in the file. *)
Definition py_write (w : World) (path data : string) : M py_exc unit :=
  emit (EvWrite path data);;
  fs ← get_files;
  let held := default "" (read_file fs path) in
  match write_fault w path data fs with
  | Some (e, n) =>
      set_files (put_file path (held +:+ substring 0 n data) fs);;
      raise e
  | None => set_files (put_file path (held +:+ data) fs)
  end.

(** [subprocess.run(args, ...)] with both streams captured as text. *)
Definition subprocess_run (w : World) (args : popen_args)
    : M py_exc CompletedProcess :=
  emit (EvRun args);;
  fs ← get_files;
  let '(fs', r) := spawn w args fs in
  set_files fs';;
  match r with
  | inl e => raise e
  | inr cp => mret cp
  end.

(** [subprocess.run(args, check=True, ...)] *)
Definition subprocess_run_check (w : World) (args : popen_args)
    : M run_exc CompletedProcess :=
  cp ← try_except (subprocess_run w args) (λ e, raise (RunFault e));
  if bool_decide (returncode cp = 0) then mret cp
  else raise (CalledProcessError args cp).

(** ** The module *)

(** Line 14: [storage_path = os.getenv('STORAGE_PATH', './data_storage/')],
    read once when the module is imported. *)
Definition init_storage_path (environ : gmap string string) : string :=
  os_getenv environ "STORAGE_PATH" "./data_storage/".

(** The text line 61 puts after the output: two newlines and the
    instruction. *)
Definition completion_suffix : string :=
  String "010" (String "010"
    "If you have completed all tasks, respond with FINAL ANSWER.").

(** Lines 22-78. [storage_path] is the module global. *)
Definition execute_code (w : World) (storage_path : string)
    (input_code codefile_name : string) : M py_exc (gmap string string) :=
  let code_file_path := os_path_join storage_path codefile_name in
  try_except
    (py_open_w w code_file_path;;
     py_write w code_file_path input_code;;
     logger_info ("Code written to file: " +:+ code_file_path);;
     result ← subprocess_run w (Argv ["python"; code_file_path]);
     let output := stdout result in
     let error_output := stderr result in
     if bool_decide (returncode result = 0) then
       logger_info "Code executed successfully";;
       print w output;;
       mret (<["result" := "Code executed successfully"]>
             (<["output" := output +:+ completion_suffix]>
             (<["file_path" := code_file_path]> ∅)))
     else
       logger_error ("Code execution failed: " +:+ error_output);;
       print w error_output;;
       mret (<["result" := "Failed to execute"]>
             (<["error" := error_output]>
             (<["file_path" := code_file_path]> ∅))))
    (λ e,
      if derives_from_Exception (exc_cls e) then
        logger_exception "An error occurred while executing code";;
        mret (<["result" := "Error occurred"]>
              (<["error" := exc_str e]>
              (<["file_path" := code_file_path]> ∅)))
      else raise e).

(** Lines 81-122. [environ] is [os.environ] when the tool is called. *)
Definition execute_command (w : World) (environ : gmap string string)
    (command : string) : M py_exc string :=
  try_except
    (let conda_path := os_getenv environ "CONDA_PATH" "/home/e806/anaconda3" in
     let conda_env := os_getenv environ "CONDA_ENV" "dcbot" in
     let source := "source " +:+ conda_path +:+ "/etc/profile.d/conda.sh" in
     let conda_activate := "conda activate " +:+ conda_env in
     let full_command :=
       source +:+ " && " +:+ conda_activate +:+ " && " +:+ command in
     logger_info ("Executing command: " +:+ command);;
     result ← subprocess_run_check w (Shell full_command "/bin/bash");
     logger_info "Command executed successfully";;
     mret (stdout result))
    (λ e,
      match e with
      | CalledProcessError _ cp =>
          logger_error ("Error executing command: " +:+ stderr cp);;
          mret ("Error: " +:+ stderr cp)
      | RunFault e' => raise e'
      end).

(** ** Observing a call *)

(** The three dictionaries [execute_code] builds. *)
Definition success_dict (path output : string) : gmap string string :=
  <["result" := "Code executed successfully"]>
  (<["output" := output +:+ completion_suffix]>
  (<["file_path" := path]> ∅)).

Definition failure_dict (path error_output : string) : gmap string string :=
  <["result" := "Failed to execute"]>
  (<["error" := error_output]>
  (<["file_path" := path]> ∅)).

Definition error_dict (path msg : string) : gmap string string :=
  <["result" := "Error occurred"]>
  (<["error" := msg]>
  (<["file_path" := path]> ∅)).

(** One of the three: the fixed [result] string and the exact set of
    keys that goes with it. *)
Definition well_shaped (d : gmap string string) : Prop :=
  (d !! "result" = Some "Code executed successfully"
   ∧ dom d = {["result"; "output"; "file_path"]})
  ∨ (d !! "result" = Some "Failed to execute"
     ∧ dom d = {["result"; "error"; "file_path"]})
  ∨ (d !! "result" = Some "Error occurred"
     ∧ dom d = {["result"; "error"; "file_path"]}).

(** What lines 72-78 do with the exception [e] in state [s]. *)
Definition handled (path : string) (e : py_exc) (s : OS)
    : res py_exc (gmap string string) * OS :=
  if derives_from_Exception (exc_cls e) then
    (Returned (error_dict path (exc_str e)),
     {| files := files s;
        trace := trace s ++ [EvLog "ERROR" "An error occurred while executing code"] |})
  else (Raised e, s).

(** The events a call added to the trace. *)
Definition events_since (s s' : OS) : list event :=
  drop (length (trace s)) (trace s').

Definition is_run (ev : event) : bool :=
  match ev with EvRun _ => true | _ => false end.

Definition is_write (ev : event) : bool :=
  match ev with EvWrite _ _ => true | _ => false end.

(** How many child processes a call asked for, how many file writes. *)
Definition runs_of (evs : list event) : nat := length (filter is_run evs).

Definition writes_of (evs : list event) : nat := length (filter is_write evs).

(** The command lines handed to [subprocess.run]. *)
Definition commands_run (evs : list event) : list popen_args :=
  omap (λ ev, match ev with EvRun a => Some a | _ => None end) evs.

(** The command line [execute_command] composes (lines 98-104). *)
Definition full_command_of (environ : gmap string string) (command : string)
    : string :=
  let conda_path := os_getenv environ "CONDA_PATH" "/home/e806/anaconda3" in
  let conda_env := os_getenv environ "CONDA_ENV" "dcbot" in
  let source := "source " +:+ conda_path +:+ "/etc/profile.d/conda.sh" in
  let conda_activate := "conda activate " +:+ conda_env in
  source +:+ " && " +:+ conda_activate +:+ " && " +:+ command.

(** The calls every persisted submission to [execute_code] makes. *)
Definition persisted_events (path input_code : string) : list event :=
  [EvOpen path; EvWrite path input_code;
   EvLog "INFO" ("Code written to file: " +:+ path);
   EvRun (Argv ["python"; path])].

(** The calls every submission to [execute_command] makes. *)
Definition command_events (environ : gmap string string) (command : string)
    : list event :=
  [EvLog "INFO" ("Executing command: " +:+ command);
   EvRun (Shell (full_command_of environ command) "/bin/bash")].

(** [faults w path data fs e]: with the file system [fs], persisting
    [data] at [path] and running it raises [e], in [open], in [write] or
    in [subprocess.run]. *)
Inductive faults (w : World) (path data : string) (fs : FS)
    : py_exc → Prop :=
  | fault_open e :
      open_fault w path fs = Some e → faults w path data fs e
  | fault_write e n :
      open_fault w path fs = None →
      write_fault w path data (put_file path "" fs) = Some (e, n) →
      faults w path data fs e
  | fault_run fs' e :
      open_fault w path fs = None →
      write_fault w path data (put_file path "" fs) = None →
      spawn w (Argv ["python"; path]) (put_file path data fs) = (fs', inl e) →
      faults w path data fs e.

(** [persisted_and_ran w path data fs fs' cp]: persisting [data] at [path]
    raised nothing and [subprocess.run] raised nothing: the child ran to
    completion, its output was captured and decoded as [cp], and it left
    the file system [fs']. *)
Definition persisted_and_ran (w : World) (path data : string)
    (fs fs' : FS) (cp : CompletedProcess) : Prop :=
  open_fault w path fs = None
  ∧ write_fault w path data (put_file path "" fs) = None
  ∧ spawn w (Argv ["python"; path]) (put_file path data fs) = (fs', inr cp).

(** The file writes and the [subprocess.run] calls one submission to
    [execute_code] makes, by what [open] and [write] answer. *)
Definition expected_writes (w : World) (path : string) (fs : FS) : nat :=
  match open_fault w path fs with
  | None => 1%nat
  | Some _ => 0%nat
  end.

Definition expected_runs (w : World) (path data : string) (fs : FS) : nat :=
  match open_fault w path fs, write_fault w path data (put_file path "" fs) with
  | None, None => 1%nat
  | _, _ => 0%nat
  end.



(** What [execute_command] gives its caller, by what [subprocess.run]
    does. *)
Definition command_outcome (r : py_exc + CompletedProcess) : res py_exc string :=
  match r with
  | inl e => Raised e
  | inr cp =>
      if bool_decide (returncode cp = 0) then Returned (stdout cp)
      else Returned ("Error: " +:+ stderr cp)
  end.

(** ** Importing the module (lines 8-19 and 124) *)

(** [load_dotenv()]: the variables of the [.env] file are added to the
    environment; a variable the process already has keeps its value
    (the default [override=False]). *)
Definition load_dotenv (dotenv environ : gmap string string)
    : gmap string string :=
  environ ∪ dotenv.

(** The paths that exist when the module is imported, and the log. *)
Record Disk : Type := MkDisk {
  existing : gset string;
  disk_log : list event
}.

(** [os.path.exists(p)]: never true of the empty path. *)
Definition os_path_exists (d : Disk) (p : string) : bool :=
  bool_decide (p ≠ "") && bool_decide (p ∈ existing d).

(** [os.makedirs(p)]. The platform answers with the directories created
    on the way (missing parents are created before the leaf) and the
    exception raised, if any; the empty path is always refused. *)
Definition os_makedirs
    (makedirs : string → gset string → gset string * option py_exc)
    (p : string) (d : Disk) : res py_exc unit * Disk :=
  if bool_decide (p = "") then
    (Raised (PyExc FileNotFoundError "[Errno 2] No such file or directory: ''"), d)
  else
    let '(created, r) := makedirs p (existing d) in
    match r with
    | Some e =>
        (Raised e, {| existing := created ∪ existing d; disk_log := disk_log d |})
    | None =>
        (Returned (),
         {| existing := {[p]} ∪ created ∪ existing d; disk_log := disk_log d |})
    end.

(** The top level of the module: [load_dotenv()], line 14, the creation
    of the storage directory when [os.path.exists] does not find it
    (lines 17-19) and the final log entry of line 124. Nothing at the
    top level catches what [os.makedirs] raises. The value returned is
    the module global [storage_path]. *)
Definition module_import
    (makedirs : string → gset string → gset string * option py_exc)
    (dotenv environ : gmap string string) (d : Disk) : res py_exc string * Disk :=
  let environ' := load_dotenv dotenv environ in
  let storage_path := init_storage_path environ' in
  if os_path_exists d storage_path then
    (Returned storage_path,
     {| existing := existing d;
        disk_log := disk_log d
          ++ [EvLog "INFO" "Module initialized successfully"] |})
  else
    match os_makedirs makedirs storage_path d with
    | (Raised e, d') => (Raised e, d')
    | (Returned _, d') =>
        (Returned storage_path,
         {| existing := existing d';
            disk_log := disk_log d'
              ++ [EvLog "INFO" ("Created storage directory: " +:+ storage_path);
                  EvLog "INFO" "Module initialized successfully"] |})
    end.

(** ** Sample platforms *)

(** Every path names the regular file of its own spelling. *)
Definition plain_names : string → option string := Some.

(** As [plain_names], but [/dev/null] is a device and
    [./data_storage/./plot.py] is another spelling of
    [./data_storage/plot.py]. *)
Definition posix_names (p : string) : option string :=
  if bool_decide (p = "/dev/null") then None
  else if bool_decide (p = "./data_storage/./plot.py")
  then Some "./data_storage/plot.py"
  else Some p.

(** Nothing fails and every child behaves as [cp], touching no file. *)
Definition steady_world (cp : CompletedProcess) : World :=
  {| open_fault := λ _ _, None;
     write_fault := λ _ _ _, None;
     spawn := λ _ fs, (fs, inr cp);
     print_fault := λ _, None |}.

(** The storage refuses every [open]. *)
Definition readonly_world (cp : CompletedProcess) : World :=
  {| open_fault := λ _ _,
       Some (PyExc PermissionError "[Errno 13] Permission denied");
     write_fault := λ _ _ _, None;
     spawn := λ _ fs, (fs, inr cp);
     print_fault := λ _, None |}.

(** The storage has a quota: of a [write] of more than [quota]
    characters the first [quota] reach the file, then it raises. *)
Definition quota_world (quota : nat) (cp : CompletedProcess) : World :=
  {| open_fault := λ _ _, None;
     write_fault := λ _ data _,
       if bool_decide (quota < String.length data)%nat
       then Some (PyExc OSError "[Errno 28] No space left on device", quota)
       else None;
     spawn := λ _ fs, (fs, inr cp);
     print_fault := λ _, None |}.

(** Files are created without write permission for their owner: [open]
    refuses a file that is already there. *)
Definition umask_world (cp : CompletedProcess) : World :=
  {| open_fault := λ path fs,
       match read_file fs path with
       | Some _ => Some (PyExc PermissionError "[Errno 13] Permission denied")
       | None => None
       end;
     write_fault := λ _ _ _, None;
     spawn := λ _ fs, (fs, inr cp);
     print_fault := λ _, None |}.

(** The standard output is closed: every [print] raises. *)
Definition closed_stdout_world (cp : CompletedProcess) : World :=
  {| open_fault := λ _ _, None;
     write_fault := λ _ _ _, None;
     spawn := λ _ fs, (fs, inr cp);
     print_fault := λ _,
       Some (PyExc ValueError "I/O operation on closed file.") |}.

(** A keyboard interrupt arrives while the child runs. *)
Definition interrupted_world : World :=
  {| open_fault := λ _ _, None;
     write_fault := λ _ _ _, None;
     spawn := λ _ fs, (fs, inl (PyExc KeyboardInterrupt ""));
     print_fault := λ _, None |}.

Definition empty_fs : FS := {| names := plain_names; contents := ∅ |}.

Definition boot : OS := {| files := empty_fs; trace := [] |}.

(** A host on which [os.makedirs] creates the leaf and never raises. *)
Definition makedirs_ok : string → gset string → gset string * option py_exc :=
  λ _ _, (∅, None).

Definition fresh_disk : Disk := {| existing := ∅; disk_log := [] |}.

(** ** Proof steps *)

(** Unfolds the monad and the runtime calls down to state passing. *)
Ltac step_through :=
  unfold execute_code, execute_command, subprocess_run_check, subprocess_run,
    py_open_w, py_write, print, try_except, logger_info, logger_error,
    logger_exception, emit, get_files, set_files, raise,
    mbind, M_bind, mret, M_ret;
  cbn.

(** Normalises the traces on both sides. *)
Ltac tidy := cbn; rewrite <- ?(assoc_L (++)); cbn; try done.

(** * Properties *)

(** ** The runtime calls on sample inputs *)

Example suffix_is_two_newlines_and_text :
  completion_suffix =
  String (ascii_of_nat 10) (String (ascii_of_nat 10)
    "If you have completed all tasks, respond with FINAL ANSWER.").
Proof. reflexivity. Qed.

Example storage_path_default : init_storage_path ∅ = "./data_storage/".
Proof. reflexivity. Qed.

Example storage_path_configured :
  init_storage_path {["STORAGE_PATH" := "/srv/artifacts"]} = "/srv/artifacts".
Proof. reflexivity. Qed.

Example join_default_root :
  os_path_join "./data_storage/" "plot.py" = "./data_storage/plot.py".
Proof. reflexivity. Qed.

Example join_bare_root : os_path_join "/srv/artifacts" "plot.py" = "/srv/artifacts/plot.py".
Proof. reflexivity. Qed.

Example join_absolute_name :
  os_path_join "./data_storage/" "/tmp/x.py" = "/tmp/x.py".
Proof. reflexivity. Qed.

Example echo_hello :
  fst (execute_command (steady_world (Completed 0 ("hello" +:+ String "010" "") ""))
         ∅ "echo hello" boot)
  = Returned ("hello" +:+ String "010" "").
Proof. reflexivity. Qed.

Example endswith_sep_cases :
  endswith_sep "./data_storage/" = true ∧ endswith_sep "/srv/artifacts" = false
  ∧ endswith_sep "" = false ∧ endswith_sep "/" = true.
Proof. by repeat split. Qed.

(** Two spellings of one file: what is submitted as [./plot.py] is read
    back as [plot.py]. *)
Example two_spellings_one_file :
  let s := {| files := {| names := posix_names; contents := ∅ |}; trace := [] |} in
  read_file
    (files (snd (execute_code (steady_world (Completed 0 "" ""))
                   "./data_storage/" "y = 2" "./plot.py" s)))
    "./data_storage/plot.py"
  = Some "y = 2".
Proof. reflexivity. Qed.

(** A device keeps nothing: [open] and [write] pass, the call succeeds
    and the path holds no body. *)
Example dev_null_keeps_nothing :
  let s := {| files := {| names := posix_names; contents := ∅ |}; trace := [] |} in
  let r := execute_code (steady_world (Completed 0 "" ""))
             "./data_storage/" "y = 2" "/dev/null" s in
  fst r = Returned (success_dict "/dev/null" "")
  ∧ read_file (files (snd r)) "/dev/null" = None.
Proof. cbn zeta. split; by vm_compute. Qed.

(** A relative name is placed under the storage root. *)
Lemma os_path_join_relative (root name : string) :
  startswith_sep name = false →
  os_path_join root name = root +:+ name
  ∨ os_path_join root name = root +:+ "/" +:+ name.
Proof.
  intros Hn. unfold os_path_join. rewrite Hn.
  destruct (bool_decide (root = "") || endswith_sep root); auto.
Qed.

Lemma string_app_assoc (a b c : string) : (a +:+ b) +:+ c = a +:+ b +:+ c.
Proof.
  induction a as [|ch a IH]; [done |].
  change (String ch ((a +:+ b) +:+ c) = String ch (a +:+ b +:+ c)).
  by f_equal.
Qed.

Lemma string_app_inj_l (a b c : string) : a +:+ b = a +:+ c → b = c.
Proof.
  induction a as [|ch a IH]; [done |].
  change (String ch (a +:+ b) = String ch (a +:+ c) → b = c).
  intros H. apply IH. by injection H.
Qed.

(** ** The file system *)

Lemma names_put_file (path data : string) (fs : FS) :
  names (put_file path data fs) = names fs.
Proof. unfold put_file. by destruct (names fs path). Qed.

Lemma put_file_put_file (path d1 d2 : string) (fs : FS) :
  put_file path d2 (put_file path d1 fs) = put_file path d2 fs.
Proof.
  unfold put_file. destruct (names fs path) as [k|] eqn:Hk; cbn; rewrite Hk.
  - by rewrite insert_insert_eq.
  - done.
Qed.

Lemma read_put_file (path data : string) (fs : FS) :
  is_Some (names fs path) →
  read_file (put_file path data fs) path = Some data.
Proof.
  intros [k Hk]. unfold read_file, put_file. rewrite Hk. cbn. rewrite Hk.
  apply lookup_insert_eq.
Qed.

Lemma read_put_file_other (path data p : string) (fs : FS) :
  names fs p ≠ names fs path →
  read_file (put_file path data fs) p = read_file fs p.
Proof.
  intros Hne. unfold read_file, put_file.
  destruct (names fs path) as [k|] eqn:Hk; [cbn | done].
  destruct (names fs p) as [k'|]; [| done].
  apply lookup_insert_ne. congruence.
Qed.

(** Opening with mode ['w'] and writing leaves exactly what was written. *)
Lemma truncate_then_write (fs : FS) (path data : string) :
  put_file path (default "" (read_file (put_file path "" fs) path) +:+ data)
    (put_file path "" fs)
  = put_file path data fs.
Proof.
  rewrite put_file_put_file.
  destruct (names fs path) as [k|] eqn:Hk.
  - by rewrite read_put_file.
  - unfold put_file. by rewrite Hk.
Qed.

(** ** The trace *)

Lemma events_since_app (s s' : OS) (evs : list event) :
  trace s' = trace s ++ evs → events_since s s' = evs.
Proof. unfold events_since. intros ->. by rewrite drop_app_length. Qed.

Lemma events_since_mk (s : OS) (fs : FS) (evs : list event) :
  events_since s {| files := fs; trace := trace s ++ evs |} = evs.
Proof. by apply events_since_app. Qed.

(** ** The dictionaries *)

Lemma dom_success_dict (path output : string) :
  dom (success_dict path output) = {["result"; "output"; "file_path"]}.
Proof.
  unfold success_dict. rewrite !dom_insert_L, dom_empty_L. set_solver.
Qed.

Lemma dom_failure_dict (path error_output : string) :
  dom (failure_dict path error_output) = {["result"; "error"; "file_path"]}.
Proof.
  unfold failure_dict. rewrite !dom_insert_L, dom_empty_L. set_solver.
Qed.

Lemma dom_error_dict (path msg : string) :
  dom (error_dict path msg) = {["result"; "error"; "file_path"]}.
Proof.
  unfold error_dict. rewrite !dom_insert_L, dom_empty_L. set_solver.
Qed.

(** ** The [except] clause of [execute_code] *)

Lemma handled_Exception (path : string) (e : py_exc) (s : OS) :
  derives_from_Exception (exc_cls e) = true →
  fst (handled path e s) = Returned (error_dict path (exc_str e)).
Proof. intros He. unfold handled. by rewrite He. Qed.

Lemma handled_snd (path : string) (e : py_exc) (s : OS) :
  snd (handled path e s)
  = {| files := files s;
       trace := trace s ++
         (if derives_from_Exception (exc_cls e)
          then [EvLog "ERROR" "An error occurred while executing code"]
          else []) |}.
Proof.
  unfold handled. destruct (derives_from_Exception (exc_cls e)); cbn; [done |].
  rewrite (right_id_L [] (++)). by destruct s.
Qed.

Lemma handled_shape (path : string) (e : py_exc) (s : OS) :
  match fst (handled path e s) with
  | Returned d => well_shaped d
  | Raised e' => derives_from_Exception (exc_cls e') = false
  end.
Proof.
  unfold handled. destruct (derives_from_Exception (exc_cls e)) eqn:He; cbn.
  - right; right. split; [done | apply dom_error_dict].
  - done.
Qed.

(** ** The seven ways through [execute_code] *)

Section Execute_code.
Context (w : World) (storage_path : string).
Context (input_code codefile_name : string).

Local Abbreviation path := (os_path_join storage_path codefile_name).
Local Abbreviation argv := (Argv ["python"; path]).

(** [open] raises. *)
Lemma execute_code_open_raises (s : OS) (e : py_exc) :
  open_fault w path (files s) = Some e →
  execute_code w storage_path input_code codefile_name s
  = handled path e {| files := files s; trace := trace s ++ [EvOpen path] |}.
Proof.
  intros Ho. unfold handled. step_through. rewrite Ho.
  destruct (derives_from_Exception (exc_cls e)); tidy.
Qed.

(** [open] passes, [write] raises: the file holds what was written
    before the fault. *)
Lemma execute_code_write_raises (s : OS) (e : py_exc) (n : nat) :
  open_fault w path (files s) = None →
  write_fault w path input_code (put_file path "" (files s)) = Some (e, n) →
  execute_code w storage_path input_code codefile_name s
  = handled path e
      {| files := put_file path (substring 0 n input_code) (files s);
         trace := trace s ++ [EvOpen path; EvWrite path input_code] |}.
Proof.
  intros Ho Hw. unfold handled. step_through. rewrite Ho. cbn.
  rewrite Hw. cbn. rewrite truncate_then_write.
  destruct (derives_from_Exception (exc_cls e)); tidy.
Qed.

(** The artifact is persisted, [subprocess.run] raises. *)
Lemma execute_code_run_raises (s : OS) (fs' : FS) (e : py_exc) :
  open_fault w path (files s) = None →
  write_fault w path input_code (put_file path "" (files s)) = None →
  spawn w argv (put_file path input_code (files s)) = (fs', inl e) →
  execute_code w storage_path input_code codefile_name s
  = handled path e
      {| files := fs'; trace := trace s ++ persisted_events path input_code |}.
Proof.
  intros Ho Hw Hr. unfold handled. step_through. rewrite Ho. cbn.
  rewrite Hw. cbn. rewrite truncate_then_write, Hr.
  destruct (derives_from_Exception (exc_cls e)); tidy.
Qed.

(** The child exits with code 0 and [print] passes. *)
Lemma execute_code_exit_zero (s : OS) (fs' : FS) (cp : CompletedProcess) :
  open_fault w path (files s) = None →
  write_fault w path input_code (put_file path "" (files s)) = None →
  spawn w argv (put_file path input_code (files s)) = (fs', inr cp) →
  returncode cp = 0 →
  print_fault w (stdout cp) = None →
  execute_code w storage_path input_code codefile_name s
  = (Returned (success_dict path (stdout cp)),
     {| files := fs';
        trace := trace s ++ persisted_events path input_code ++
                 [EvLog "INFO" "Code executed successfully";
                  EvPrint (stdout cp)] |}).
Proof.
  intros Ho Hw Hr Hz Hp. step_through. rewrite Ho. cbn.
  rewrite Hw. cbn. rewrite truncate_then_write, Hr. cbn.
  rewrite bool_decide_eq_true_2 by done. cbn. rewrite Hp. tidy.
Qed.

(** The child exits with code 0 and [print] raises. *)
Lemma execute_code_exit_zero_print_raises (s : OS) (fs' : FS)
    (cp : CompletedProcess) (e : py_exc) :
  open_fault w path (files s) = None →
  write_fault w path input_code (put_file path "" (files s)) = None →
  spawn w argv (put_file path input_code (files s)) = (fs', inr cp) →
  returncode cp = 0 →
  print_fault w (stdout cp) = Some e →
  execute_code w storage_path input_code codefile_name s
  = handled path e
      {| files := fs';
         trace := trace s ++ persisted_events path input_code ++
                  [EvLog "INFO" "Code executed successfully";
                   EvPrint (stdout cp)] |}.
Proof.
  intros Ho Hw Hr Hz Hp. unfold handled. step_through. rewrite Ho. cbn.
  rewrite Hw. cbn. rewrite truncate_then_write, Hr. cbn.
  rewrite bool_decide_eq_true_2 by done. cbn. rewrite Hp.
  destruct (derives_from_Exception (exc_cls e)); tidy.
Qed.

(** The child exits with another code and [print] passes. *)
Lemma execute_code_exit_nonzero (s : OS) (fs' : FS) (cp : CompletedProcess) :
  open_fault w path (files s) = None →
  write_fault w path input_code (put_file path "" (files s)) = None →
  spawn w argv (put_file path input_code (files s)) = (fs', inr cp) →
  returncode cp ≠ 0 →
  print_fault w (stderr cp) = None →
  execute_code w storage_path input_code codefile_name s
  = (Returned (failure_dict path (stderr cp)),
     {| files := fs';
        trace := trace s ++ persisted_events path input_code ++
                 [EvLog "ERROR" ("Code execution failed: " +:+ stderr cp);
                  EvPrint (stderr cp)] |}).
Proof.
  intros Ho Hw Hr Hz Hp. step_through. rewrite Ho. cbn.
  rewrite Hw. cbn. rewrite truncate_then_write, Hr. cbn.
  rewrite bool_decide_eq_false_2 by done. cbn. rewrite Hp. tidy.
Qed.

(** The child exits with another code and [print] raises. *)
Lemma execute_code_exit_nonzero_print_raises (s : OS) (fs' : FS)
    (cp : CompletedProcess) (e : py_exc) :
  open_fault w path (files s) = None →
  write_fault w path input_code (put_file path "" (files s)) = None →
  spawn w argv (put_file path input_code (files s)) = (fs', inr cp) →
  returncode cp ≠ 0 →
  print_fault w (stderr cp) = Some e →
  execute_code w storage_path input_code codefile_name s
  = handled path e
      {| files := fs';
         trace := trace s ++ persisted_events path input_code ++
                  [EvLog "ERROR" ("Code execution failed: " +:+ stderr cp);
                   EvPrint (stderr cp)] |}.
Proof.
  intros Ho Hw Hr Hz Hp. unfold handled. step_through. rewrite Ho. cbn.
  rewrite Hw. cbn. rewrite truncate_then_write, Hr. cbn.
  rewrite bool_decide_eq_false_2 by done. cbn. rewrite Hp.
  destruct (derives_from_Exception (exc_cls e)); tidy.
Qed.

End Execute_code.

(** Splits a call of [execute_code] by what the platform answers. *)
Ltac by_platform w sp code name s :=
  let Ho := fresh "Ho" in
  let Hw := fresh "Hw" in
  let Hr := fresh "Hr" in
  let Hz := fresh "Hz" in
  let Hp := fresh "Hp" in
  destruct (open_fault w (os_path_join sp name) (files s)) as [?e|] eqn:Ho;
  [ rewrite (execute_code_open_raises w sp code name s _ Ho)
  | destruct (write_fault w (os_path_join sp name) code
                (put_file (os_path_join sp name) "" (files s)))
      as [[?e ?n]|] eqn:Hw;
    [ rewrite (execute_code_write_raises w sp code name s _ _ Ho Hw)
    | destruct (spawn w (Argv ["python"; os_path_join sp name])
                  (put_file (os_path_join sp name) code (files s)))
        as [?fs [?e|?cp]] eqn:Hr;
      [ rewrite (execute_code_run_raises w sp code name s _ _ Ho Hw Hr)
      | destruct (decide (returncode cp = 0)) as [Hz|Hz];
        [ destruct (print_fault w (stdout cp)) as [?e|] eqn:Hp;
          [ rewrite (execute_code_exit_zero_print_raises
                       w sp code name s _ _ _ Ho Hw Hr Hz Hp)
          | rewrite (execute_code_exit_zero w sp code name s _ _ Ho Hw Hr Hz Hp) ]
        | destruct (print_fault w (stderr cp)) as [?e|] eqn:Hp;
          [ rewrite (execute_code_exit_nonzero_print_raises
                       w sp code name s _ _ _ Ho Hw Hr Hz Hp)
          | rewrite (execute_code_exit_nonzero
                       w sp code name s _ _ Ho Hw Hr Hz Hp) ] ] ] ] ].

(** ** The three ways through [execute_command] *)

Section Execute_command.
Context (w : World) (environ : gmap string string) (command : string).

Local Abbreviation shell :=
  (Shell (full_command_of environ command) "/bin/bash").

(** [subprocess.run] itself raises (the shell cannot be started, its
    output cannot be decoded). *)
Lemma execute_command_run_raises (s : OS) (fs' : FS) (e : py_exc) :
  spawn w shell (files s) = (fs', inl e) →
  execute_command w environ command s
  = (Raised e,
     {| files := fs'; trace := trace s ++ command_events environ command |}).
Proof.
  intros Hr. step_through. unfold full_command_of in Hr. rewrite Hr. tidy.
Qed.

(** The shell exits with code 0. *)
Lemma execute_command_exit_zero (s : OS) (fs' : FS) (cp : CompletedProcess) :
  spawn w shell (files s) = (fs', inr cp) →
  returncode cp = 0 →
  execute_command w environ command s
  = (Returned (stdout cp),
     {| files := fs';
        trace := trace s ++ command_events environ command
                 ++ [EvLog "INFO" "Command executed successfully"] |}).
Proof.
  intros Hr Hz. step_through. unfold full_command_of in Hr. rewrite Hr. cbn.
  rewrite bool_decide_eq_true_2 by done. tidy.
Qed.

(** The shell exits with another code: [check=True] raises
    [CalledProcessError], which line 120 catches. *)
Lemma execute_command_exit_nonzero (s : OS) (fs' : FS) (cp : CompletedProcess) :
  spawn w shell (files s) = (fs', inr cp) →
  returncode cp ≠ 0 →
  execute_command w environ command s
  = (Returned ("Error: " +:+ stderr cp),
     {| files := fs';
        trace := trace s ++ command_events environ command
                 ++ [EvLog "ERROR" ("Error executing command: " +:+ stderr cp)] |}).
Proof.
  intros Hr Hz. step_through. unfold full_command_of in Hr. rewrite Hr. cbn.
  rewrite bool_decide_eq_false_2 by done. tidy.
Qed.

End Execute_command.

(** Splits a call of [execute_command] by what the platform answers. *)
Ltac by_shell w environ command s :=
  let Hr := fresh "Hr" in
  let Hz := fresh "Hz" in
  destruct (spawn w (Shell (full_command_of environ command) "/bin/bash")
              (files s)) as [?fs [?e|?cp]] eqn:Hr;
  [ rewrite (execute_command_run_raises w environ command s _ _ Hr)
  | destruct (decide (returncode cp = 0)) as [Hz|Hz];
    [ rewrite (execute_command_exit_zero w environ command s _ _ Hr Hz)
    | rewrite (execute_command_exit_nonzero w environ command s _ _ Hr Hz) ] ].

(** ** What a call leaves outside *)

(** The file system [execute_code] leaves behind. *)
Lemma execute_code_files
    (w : World) (storage_path input_code codefile_name : string) (s : OS) :
  let path := os_path_join storage_path codefile_name in
  files (snd (execute_code w storage_path input_code codefile_name s))
  = match open_fault w path (files s) with
    | Some _ => files s
    | None =>
        match write_fault w path input_code (put_file path "" (files s)) with
        | Some (_, n) => put_file path (substring 0 n input_code) (files s)
        | None =>
            fst (spawn w (Argv ["python"; path])
                   (put_file path input_code (files s)))
        end
    end.
Proof.
  cbn zeta.
  by_platform w storage_path input_code codefile_name s;
    rewrite ?handled_snd; done.
Qed.

(** When the path names a regular file, persisting raises nothing and
    the child leaves the file as it is, the path holds the submitted
    code after the call. *)
Lemma artifact_after_call
    (w : World) (storage_path input_code codefile_name : string) (s : OS) :
  let path := os_path_join storage_path codefile_name in
  let persisted := put_file path input_code (files s) in
  is_Some (names (files s) path) →
  open_fault w path (files s) = None →
  write_fault w path input_code (put_file path "" (files s)) = None →
  read_file (fst (spawn w (Argv ["python"; path]) persisted)) path
  = read_file persisted path →
  read_file
    (files (snd (execute_code w storage_path input_code codefile_name s))) path
  = Some input_code.
Proof.
  cbn zeta. intros Hn Ho Hw Hc. rewrite execute_code_files. cbn zeta.
  rewrite Ho, Hw, Hc. by apply read_put_file.
Qed.

Lemma execute_code_calls
    (w : World) (storage_path input_code codefile_name : string) (s : OS) :
  let path := os_path_join storage_path codefile_name in
  let evs :=
    events_since s (snd (execute_code w storage_path input_code codefile_name s)) in
  writes_of evs = expected_writes w path (files s)
  ∧ runs_of evs = expected_runs w path input_code (files s).
Proof.
  cbn zeta. unfold expected_writes, expected_runs.
  by_platform w storage_path input_code codefile_name s;
    rewrite ?handled_snd; cbn [snd files trace];
    rewrite <- ?(assoc_L (++)), events_since_mk;
    try destruct (derives_from_Exception (exc_cls _)); done.
Qed.

Lemma execute_command_calls
    (w : World) (environ : gmap string string) (command : string) (s : OS) :
  let evs := events_since s (snd (execute_command w environ command s)) in
  runs_of evs = 1%nat ∧ writes_of evs = 0%nat.
Proof.
  cbn zeta. by_shell w environ command s; cbn [snd];
    by rewrite events_since_mk.
Qed.

(** * The claims *)

(** ** [execute_command] on a nonzero exit *)

(** C1, as the code has it. When [subprocess.run] has started the shell
    of a command submission and captured and decoded its output, and
    the shell has exited with a nonzero code, [execute_command] raises
    nothing: [check=True] raises [CalledProcessError] inside the
    function, line 120 catches it, and the call returns to the caller
    the string "Error: " followed by the child's stderr text. *)
Theorem execute_command_nonzero_exit
    (w : World) (environ : gmap string string) (command : string) (s : OS)
    (fs' : FS) (cp : CompletedProcess) :
  spawn w (Shell (full_command_of environ command) "/bin/bash") (files s)
  = (fs', inr cp) →
  returncode cp ≠ 0 →
  fst (execute_command w environ command s)
  = Returned ("Error: " +:+ stderr cp).
Proof.
  intros Hr Hz. by rewrite (execute_command_exit_nonzero _ _ _ _ _ _ Hr Hz).
Qed.

Lemma execute_command_nonzero_exit_witness :
  fst (execute_command (steady_world (Completed 2 "" "ls: cannot access 'nope'"))
         ∅ "ls nope" boot)
  = Returned "Error: ls: cannot access 'nope'".
Proof.
  apply (execute_command_nonzero_exit
           (steady_world (Completed 2 "" "ls: cannot access 'nope'"))
           ∅ "ls nope" boot empty_fs (Completed 2 "" "ls: cannot access 'nope'")).
  - reflexivity.
  - cbn. lia.
Defined.

(** C1 as stated fails: for a command whose shell runs and exits with
    code 2, nothing is raised to the caller; the call returns an
    ordinary string. *)
Lemma execute_command_nonzero_exit_not_raised :
  let w := steady_world (Completed 2 "" "ls: cannot access 'nope'") in
  let r := fst (execute_command w ∅ "ls nope" boot) in
  snd (spawn w (Shell (full_command_of ∅ "ls nope") "/bin/bash") empty_fs)
  = inr (Completed 2 "" "ls: cannot access 'nope'")
  ∧ r = Returned "Error: ls: cannot access 'nope'"
  ∧ ¬ ∃ e, r = Raised e.
Proof.
  cbn zeta. split; [reflexivity |]. split; [by vm_compute |].
  intros [e He]. vm_compute in He. discriminate He.
Qed.

(** ** Exceptions inside [execute_code] *)

(** C2, as the code has it. For every name and body, an exception raised
    while the code is persisted, spawned or captured whose class derives
    from [Exception] (the class line 72 names) is caught and does not
    reach the caller: [execute_code] returns the dictionary with result
    "Error occurred", the message [str(e)] and the file path. *)
Theorem execute_code_converts_exceptions
    (w : World) (storage_path input_code codefile_name : string) (s : OS)
    (e : py_exc) :
  faults w (os_path_join storage_path codefile_name) input_code (files s) e →
  derives_from_Exception (exc_cls e) = true →
  fst (execute_code w storage_path input_code codefile_name s)
  = Returned (error_dict (os_path_join storage_path codefile_name) (exc_str e)).
Proof.
  intros Hf He. destruct Hf as [e Ho | e n Ho Hw | fs' e Ho Hw Hr].
  - rewrite (execute_code_open_raises _ _ _ _ _ _ Ho).
    by apply handled_Exception.
  - rewrite (execute_code_write_raises _ _ _ _ _ _ _ Ho Hw).
    by apply handled_Exception.
  - rewrite (execute_code_run_raises _ _ _ _ _ _ _ Ho Hw Hr).
    by apply handled_Exception.
Qed.

Lemma execute_code_converts_exceptions_witness :
  fst (execute_code (readonly_world (Completed 0 "" ""))
         "./data_storage/" "print(1)" "plot.py" boot)
  = Returned (error_dict "./data_storage/plot.py" "[Errno 13] Permission denied").
Proof.
  apply (execute_code_converts_exceptions
           (readonly_world (Completed 0 "" "")) "./data_storage/"
           "print(1)" "plot.py" boot
           (PyExc PermissionError "[Errno 13] Permission denied")).
  - by apply fault_open.
  - reflexivity.
Defined.

(** C2 as stated fails: a keyboard interrupt that arrives while the
    output of the child is captured is raised by [subprocess.run], is no
    [Exception], and reaches the caller of [execute_code]; no dictionary
    is returned. *)
Lemma execute_code_interrupt_reaches_caller :
  let r := fst (execute_code interrupted_world
                  "./data_storage/" "print(1)" "plot.py" boot) in
  faults interrupted_world (os_path_join "./data_storage/" "plot.py") "print(1)"
    (files boot) (PyExc KeyboardInterrupt "")
  ∧ r = Raised (PyExc KeyboardInterrupt "")
  ∧ ¬ ∃ d, r = Returned d.
Proof.
  cbn zeta. split; [by eapply fault_run |]. split; [reflexivity |].
  intros [d Hd]. vm_compute in Hd. discriminate Hd.
Qed.

(** ** The artifact *)

(** C3, as the code has it. For every name and body, the artifact path is
    [os.path.join(storage_path, name)]; when that path names a regular
    file, [open] and [write] raise nothing and the child process leaves
    what the path holds as it is, after the call a file at that path
    exists and holds exactly the body. *)
Theorem execute_code_persists_body
    (w : World) (storage_path input_code codefile_name : string) (s : OS) :
  let path := os_path_join storage_path codefile_name in
  let persisted := put_file path input_code (files s) in
  is_Some (names (files s) path) →
  open_fault w path (files s) = None →
  write_fault w path input_code (put_file path "" (files s)) = None →
  read_file (fst (spawn w (Argv ["python"; path]) persisted)) path
  = read_file persisted path →
  read_file
    (files (snd (execute_code w storage_path input_code codefile_name s))) path
  = Some input_code.
Proof. apply artifact_after_call. Qed.

Lemma execute_code_persists_body_witness :
  read_file
    (files (snd (execute_code (steady_world (Completed 0 "1" ""))
                   "./data_storage/" "print(1)" "plot.py" boot)))
    (os_path_join "./data_storage/" "plot.py")
  = Some "print(1)".
Proof.
  apply (execute_code_persists_body (steady_world (Completed 0 "1" ""))
           "./data_storage/" "print(1)" "plot.py" boot);
    first [reflexivity | by eexists].
Defined.

(** C3 as stated fails: on a storage that refuses the [open], the call
    returns the "Error occurred" dictionary and no file holding the body
    exists at the path after it. *)
Lemma no_artifact_when_open_raises :
  let r := execute_code (readonly_world (Completed 0 "1" ""))
             "./data_storage/" "print(1)" "plot.py" boot in
  fst r = Returned (error_dict "./data_storage/plot.py"
                      "[Errno 13] Permission denied")
  ∧ read_file (files (snd r)) (os_path_join "./data_storage/" "plot.py") = None
  ∧ read_file (files (snd r)) (os_path_join "./data_storage/" "plot.py")
    ≠ Some "print(1)".
Proof. cbn zeta. by vm_compute. Qed.

(** ** Exit codes of the child of [execute_code] *)

(** C4, as the code has it. When [subprocess.run] has captured the child,
    the child has exited with a nonzero code and [print] of its stderr
    raises nothing, [execute_code] returns (and raises nothing) the
    dictionary with result "Failed to execute", the child's stderr
    verbatim under error, empty or not, and the file path, and no other
    field: what the child printed on stdout is not in the result. *)
Theorem execute_code_nonzero_exit
    (w : World) (storage_path input_code codefile_name : string) (s : OS)
    (fs' : FS) (cp : CompletedProcess) :
  persisted_and_ran w (os_path_join storage_path codefile_name) input_code
    (files s) fs' cp →
  returncode cp ≠ 0 →
  print_fault w (stderr cp) = None →
  ∃ d, fst (execute_code w storage_path input_code codefile_name s) = Returned d
    ∧ d !! "result" = Some "Failed to execute"
    ∧ d !! "error" = Some (stderr cp)
    ∧ d !! "file_path" = Some (os_path_join storage_path codefile_name)
    ∧ dom d = {["result"; "error"; "file_path"]}.
Proof.
  intros (Ho & Hw & Hr) Hz Hp.
  rewrite (execute_code_exit_nonzero _ _ _ _ _ _ _ Ho Hw Hr Hz Hp).
  eexists; split; [reflexivity |].
  by rewrite dom_failure_dict.
Qed.

Lemma execute_code_nonzero_exit_witness :
  ∃ d, fst (execute_code (steady_world (Completed 1 "partial" "Traceback"))
              "./data_storage/" "raise SystemExit(1)" "plot.py" boot)
       = Returned d
    ∧ d !! "result" = Some "Failed to execute"
    ∧ d !! "error" = Some "Traceback"
    ∧ d !! "file_path" = Some "./data_storage/plot.py"
    ∧ dom d = {["result"; "error"; "file_path"]}.
Proof.
  apply (execute_code_nonzero_exit
           (steady_world (Completed 1 "partial" "Traceback"))
           "./data_storage/" "raise SystemExit(1)" "plot.py" boot
           (put_file "./data_storage/plot.py" "raise SystemExit(1)" empty_fs)
           (Completed 1 "partial" "Traceback")).
  - repeat split; reflexivity.
  - cbn. lia.
  - reflexivity.
Defined.

(** C4 as stated fails, in three ways. A child that prints "partial" and
    then exits with code 1 yields a dictionary with no stdout field, in
    which no field holds "partial". A child that exits with code 1 and
    writes nothing to stderr yields an empty error field. And when the
    [print] of line 66 raises, the status is not the failure one: the
    result is "Error occurred" with the message of [print]. *)
Lemma execute_code_nonzero_exit_drops_stdout :
  (∃ d, fst (execute_code (steady_world (Completed 1 "partial" "Traceback"))
               "./data_storage/" "raise SystemExit(1)" "plot.py" boot)
        = Returned d
     ∧ d !! "stdout" = None ∧ d !! "output" = None
     ∧ ¬ ∃ k, d !! k = Some "partial")
  ∧ (∃ d, fst (execute_code (steady_world (Completed 1 "" ""))
                 "./data_storage/" "import sys; sys.exit(1)" "plot.py" boot)
          = Returned d
       ∧ d !! "result" = Some "Failed to execute"
       ∧ d !! "error" = Some "")
  ∧ (∃ d, fst (execute_code (closed_stdout_world (Completed 1 "" "Traceback"))
                 "./data_storage/" "raise SystemExit(1)" "plot.py" boot)
          = Returned d
       ∧ d !! "result" = Some "Error occurred"
       ∧ d !! "error" = Some "I/O operation on closed file.").
Proof.
  split; [| split].
  - exists (failure_dict "./data_storage/plot.py" "Traceback").
    split; [by vm_compute |].
    split; [done |]. split; [done |].
    intros [k Hk]. unfold failure_dict in Hk.
    destruct (decide (k = "result")) as [->|]; [by simplify_map_eq |].
    destruct (decide (k = "error")) as [->|]; [by simplify_map_eq |].
    destruct (decide (k = "file_path")) as [->|]; by simplify_map_eq.
  - exists (failure_dict "./data_storage/plot.py" "").
    split; [by vm_compute |]. by split.
  - exists (error_dict "./data_storage/plot.py" "I/O operation on closed file.").
    split; [by vm_compute |]. by split.
Qed.

(** C5, as the code has it. When [subprocess.run] has captured the child,
    the child has exited with code 0 and [print] of its stdout raises
    nothing, [execute_code] returns the dictionary with result
    "Code executed successfully", the child's stdout followed by the
    completion suffix under output, and the file path, and no other
    field: there is no stderr field, whatever the child wrote there. *)
Theorem execute_code_zero_exit
    (w : World) (storage_path input_code codefile_name : string) (s : OS)
    (fs' : FS) (cp : CompletedProcess) :
  persisted_and_ran w (os_path_join storage_path codefile_name) input_code
    (files s) fs' cp →
  returncode cp = 0 →
  print_fault w (stdout cp) = None →
  ∃ d, fst (execute_code w storage_path input_code codefile_name s) = Returned d
    ∧ d !! "result" = Some "Code executed successfully"
    ∧ d !! "output" = Some (stdout cp +:+ completion_suffix)
    ∧ d !! "file_path" = Some (os_path_join storage_path codefile_name)
    ∧ dom d = {["result"; "output"; "file_path"]}.
Proof.
  intros (Ho & Hw & Hr) Hz Hp.
  rewrite (execute_code_exit_zero _ _ _ _ _ _ _ Ho Hw Hr Hz Hp).
  eexists; split; [reflexivity |].
  by rewrite dom_success_dict.
Qed.

Lemma execute_code_zero_exit_witness :
  ∃ d, fst (execute_code (steady_world (Completed 0 "ok" ""))
              "./data_storage/" "print('ok')" "plot.py" boot)
       = Returned d
    ∧ d !! "result" = Some "Code executed successfully"
    ∧ d !! "output" = Some ("ok" +:+ completion_suffix)
    ∧ d !! "file_path" = Some "./data_storage/plot.py"
    ∧ dom d = {["result"; "output"; "file_path"]}.
Proof.
  apply (execute_code_zero_exit
           (steady_world (Completed 0 "ok" ""))
           "./data_storage/" "print('ok')" "plot.py" boot
           (put_file "./data_storage/plot.py" "print('ok')" empty_fs)
           (Completed 0 "ok" "")).
  - repeat split; reflexivity.
  - reflexivity.
  - reflexivity.
Defined.

(** C5 as stated fails, in two ways. For a child that prints "ok", writes
    nothing to stderr and exits with code 0, the dictionary has no
    stderr field to hold the empty string, under either name. And when
    the [print] of line 58 raises, the status is not the success one:
    the result is "Error occurred" with the message of [print]. *)
Lemma execute_code_zero_exit_no_stderr_field :
  (∃ d, fst (execute_code (steady_world (Completed 0 "ok" ""))
               "./data_storage/" "print('ok')" "plot.py" boot)
        = Returned d
     ∧ d !! "stderr" ≠ Some "" ∧ d !! "error" ≠ Some ""
     ∧ ("stderr" ∉ dom d) ∧ ("error" ∉ dom d))
  ∧ (∃ d, fst (execute_code (closed_stdout_world (Completed 0 "ok" ""))
                 "./data_storage/" "print('ok')" "plot.py" boot)
          = Returned d
       ∧ d !! "result" = Some "Error occurred"
       ∧ d !! "error" = Some "I/O operation on closed file.").
Proof.
  split.
  - exists (success_dict "./data_storage/plot.py" "ok").
    split; [by vm_compute |].
    repeat split; try done; rewrite not_elem_of_dom; done.
  - exists (error_dict "./data_storage/plot.py" "I/O operation on closed file.").
    split; [by vm_compute |]. by split.
Qed.

(** ** Calls per submission *)

(** C6, as the code has it. A submission makes at most one file write
    and asks for at most one child process. [execute_command] asks for
    exactly one child process and writes no file. [execute_code] writes
    exactly once when [open] raises nothing and not at all otherwise, and
    asks for exactly one child process when [open] and [write] raise
    nothing and for none otherwise. *)
Theorem calls_per_submission :
  (∀ (w : World) (storage_path input_code codefile_name : string) (s : OS),
     let path := os_path_join storage_path codefile_name in
     let evs :=
       events_since s
         (snd (execute_code w storage_path input_code codefile_name s)) in
     writes_of evs = expected_writes w path (files s)
     ∧ runs_of evs = expected_runs w path input_code (files s)
     ∧ (writes_of evs ≤ 1)%nat ∧ (runs_of evs ≤ 1)%nat)
  ∧ (∀ (w : World) (environ : gmap string string) (command : string) (s : OS),
       let evs := events_since s (snd (execute_command w environ command s)) in
       runs_of evs = 1%nat ∧ writes_of evs = 0%nat).
Proof.
  split.
  - intros w sp code name s path evs.
    destruct (execute_code_calls w sp code name s) as [Hw Hr].
    fold path evs in Hw, Hr. rewrite Hw, Hr.
    unfold expected_writes, expected_runs.
    destruct (open_fault w path (files s));
      destruct (write_fault w path code (put_file path "" (files s)));
      repeat split; lia.
  - apply execute_command_calls.
Qed.

(** C6 as stated fails on an error path: when [open] raises, the
    submission writes nothing and creates no child process. *)
Lemma no_child_when_open_raises :
  let s' := snd (execute_code (readonly_world (Completed 0 "" ""))
                   "./data_storage/" "print(1)" "plot.py" boot) in
  runs_of (events_since boot s') = 0%nat
  ∧ writes_of (events_since boot s') = 0%nat
  ∧ runs_of (events_since boot s') ≠ 1%nat
  ∧ writes_of (events_since boot s') ≠ 1%nat.
Proof. cbn zeta. by vm_compute. Qed.

(** ** The command line of [execute_command] *)

(** C7. For every command text, the one command line [execute_command]
    hands to the shell [/bin/bash] is
    "source <conda_path>/etc/profile.d/conda.sh && conda activate <conda_env> && <text>",
    where conda_path and conda_env are read from the environment when the
    call is made ([CONDA_PATH], default /home/e806/anaconda3, and
    [CONDA_ENV], default dcbot). *)
Theorem execute_command_command_line
    (w : World) (environ : gmap string string) (command : string) (s : OS) :
  commands_run (events_since s (snd (execute_command w environ command s)))
  = [Shell ("source " +:+ os_getenv environ "CONDA_PATH" "/home/e806/anaconda3"
            +:+ "/etc/profile.d/conda.sh && conda activate "
            +:+ os_getenv environ "CONDA_ENV" "dcbot"
            +:+ " && " +:+ command)
       "/bin/bash"].
Proof.
  assert (Hc : full_command_of environ command
    = "source " +:+ os_getenv environ "CONDA_PATH" "/home/e806/anaconda3"
      +:+ "/etc/profile.d/conda.sh && conda activate "
      +:+ os_getenv environ "CONDA_ENV" "dcbot" +:+ " && " +:+ command).
  { unfold full_command_of. cbn zeta.
    rewrite !string_app_assoc. reflexivity. }
  rewrite <- Hc.
  by_shell w environ command s; cbn [snd]; by rewrite events_since_mk.
Qed.

(** ** Two submissions in sequence *)

(** C8, as the code has it. For two submissions in sequence under the
    same name, when the path names a regular file, the [open] and the
    [write] of the second raise nothing and its child process leaves
    what the path holds as it is, the artifact holds exactly the second
    body after the second submission: nothing of the first body is
    left. *)
Theorem second_submission_overwrites
    (w : World) (storage_path codefile_name body1 body2 : string) (s : OS) :
  let path := os_path_join storage_path codefile_name in
  let s1 := snd (execute_code w storage_path body1 codefile_name s) in
  let s2 := snd (execute_code w storage_path body2 codefile_name s1) in
  let persisted := put_file path body2 (files s1) in
  is_Some (names (files s1) path) →
  open_fault w path (files s1) = None →
  write_fault w path body2 (put_file path "" (files s1)) = None →
  read_file (fst (spawn w (Argv ["python"; path]) persisted)) path
  = read_file persisted path →
  read_file (files s2) path = Some body2.
Proof. cbn zeta. apply artifact_after_call. Qed.

Lemma second_submission_overwrites_witness :
  let w := steady_world (Completed 0 "" "") in
  let s1 := snd (execute_code w "./data_storage/" "x = 1" "plot.py" boot) in
  let s2 := snd (execute_code w "./data_storage/" "print('hello')" "plot.py" s1) in
  read_file (files s1) (os_path_join "./data_storage/" "plot.py") = Some "x = 1"
  ∧ read_file (files s2) (os_path_join "./data_storage/" "plot.py")
    = Some "print('hello')".
Proof.
  cbn zeta. split; [reflexivity |].
  apply (second_submission_overwrites (steady_world (Completed 0 "" ""))
           "./data_storage/" "plot.py" "x = 1" "print('hello')" boot);
    first [reflexivity | by eexists].
Defined.

(** C8 as stated fails: when the second body does not fit the quota, the
    second [write] raises after eight characters and the artifact holds
    those, not the second body. *)
Lemma second_body_lost_when_write_raises :
  let w := quota_world 8 (Completed 0 "" "") in
  let s1 := snd (execute_code w "./data_storage/" "x = 1" "plot.py" boot) in
  let s2 := snd (execute_code w "./data_storage/" "print('hello')" "plot.py" s1) in
  read_file (files s1) "./data_storage/plot.py" = Some "x = 1"
  ∧ read_file (files s2) "./data_storage/plot.py" = Some "print('h"
  ∧ read_file (files s2) "./data_storage/plot.py" ≠ Some "print('hello')".
Proof. cbn zeta. by vm_compute. Qed.

(** C9, as the code has it. When the body has no external side effects
    (its child process leaves the file system as it found it), runs
    deterministically (the child is a function of the file system) and
    [open] answers the same whether or not the artifact is already
    there, submitting the same name and body twice yields the same
    result both times, so the same status, stdout and stderr. *)
Theorem resubmission_same_result
    (w : World) (storage_path input_code codefile_name : string) (s : OS) :
  let path := os_path_join storage_path codefile_name in
  (∀ fs, fst (spawn w (Argv ["python"; path]) fs) = fs) →
  (∀ fs c, open_fault w path (put_file path c fs) = open_fault w path fs) →
  let first := execute_code w storage_path input_code codefile_name s in
  let second := execute_code w storage_path input_code codefile_name (snd first) in
  fst second = fst first.
Proof.
  cbn zeta. intros Hpure Hopen.
  set (path := os_path_join storage_path codefile_name) in *.
  set (s1 := snd (execute_code w storage_path input_code codefile_name s)).
  assert (Hs1 : files s1
    = match open_fault w path (files s) with
      | Some _ => files s
      | None =>
          match write_fault w path input_code (put_file path "" (files s)) with
          | Some (_, n) => put_file path (substring 0 n input_code) (files s)
          | None => put_file path input_code (files s)
          end
      end).
  { unfold s1. rewrite execute_code_files. cbn zeta. fold path.
    by rewrite Hpure. }
  destruct (open_fault w path (files s)) as [e|] eqn:Ho.
  - assert (Ho1 : open_fault w path (files s1) = Some e) by by rewrite Hs1.
    rewrite (execute_code_open_raises _ _ _ _ _ _ Ho1).
    rewrite (execute_code_open_raises _ _ _ _ _ _ Ho).
    unfold handled. by destruct (derives_from_Exception (exc_cls e)).
  - destruct (write_fault w path input_code (put_file path "" (files s)))
      as [[e n]|] eqn:Hw.
    + assert (Ho1 : open_fault w path (files s1) = None)
        by by rewrite Hs1, Hopen.
      assert (Hw1 : write_fault w path input_code (put_file path "" (files s1))
                    = Some (e, n)) by by rewrite Hs1, put_file_put_file.
      rewrite (execute_code_write_raises _ _ _ _ _ _ _ Ho1 Hw1).
      rewrite (execute_code_write_raises _ _ _ _ _ _ _ Ho Hw).
      unfold handled. by destruct (derives_from_Exception (exc_cls e)).
    + assert (Ho1 : open_fault w path (files s1) = None)
        by by rewrite Hs1, Hopen.
      assert (Hw1 : write_fault w path input_code (put_file path "" (files s1))
                    = None) by by rewrite Hs1, put_file_put_file.
      assert (Hf1 : put_file path input_code (files s1)
                    = put_file path input_code (files s))
        by by rewrite Hs1, put_file_put_file.
      destruct (spawn w (Argv ["python"; path]) (put_file path input_code (files s)))
        as [fs' [e|cp]] eqn:Hr.
      * assert (Hr1 : spawn w (Argv ["python"; path])
                        (put_file path input_code (files s1)) = (fs', inl e))
          by by rewrite Hf1.
        rewrite (execute_code_run_raises _ _ _ _ _ _ _ Ho1 Hw1 Hr1).
        rewrite (execute_code_run_raises _ _ _ _ _ _ _ Ho Hw Hr).
        unfold handled. by destruct (derives_from_Exception (exc_cls e)).
      * assert (Hr1 : spawn w (Argv ["python"; path])
                        (put_file path input_code (files s1)) = (fs', inr cp))
          by by rewrite Hf1.
        destruct (decide (returncode cp = 0)) as [Hz|Hz].
        -- destruct (print_fault w (stdout cp)) as [e|] eqn:Hp.
           ++ rewrite (execute_code_exit_zero_print_raises
                         _ _ _ _ _ _ _ _ Ho1 Hw1 Hr1 Hz Hp).
              rewrite (execute_code_exit_zero_print_raises
                         _ _ _ _ _ _ _ _ Ho Hw Hr Hz Hp).
              unfold handled. by destruct (derives_from_Exception (exc_cls e)).
           ++ rewrite (execute_code_exit_zero _ _ _ _ _ _ _ Ho1 Hw1 Hr1 Hz Hp).
              by rewrite (execute_code_exit_zero _ _ _ _ _ _ _ Ho Hw Hr Hz Hp).
        -- destruct (print_fault w (stderr cp)) as [e|] eqn:Hp.
           ++ rewrite (execute_code_exit_nonzero_print_raises
                         _ _ _ _ _ _ _ _ Ho1 Hw1 Hr1 Hz Hp).
              rewrite (execute_code_exit_nonzero_print_raises
                         _ _ _ _ _ _ _ _ Ho Hw Hr Hz Hp).
              unfold handled. by destruct (derives_from_Exception (exc_cls e)).
           ++ rewrite (execute_code_exit_nonzero _ _ _ _ _ _ _ Ho1 Hw1 Hr1 Hz Hp).
              by rewrite (execute_code_exit_nonzero _ _ _ _ _ _ _ Ho Hw Hr Hz Hp).
Qed.

Lemma resubmission_same_result_witness :
  let w := steady_world (Completed 0 "ok" "") in
  let first := execute_code w "./data_storage/" "print('ok')" "plot.py" boot in
  let second := execute_code w "./data_storage/" "print('ok')" "plot.py" (snd first) in
  fst second = fst first.
Proof.
  apply (resubmission_same_result (steady_world (Completed 0 "ok" ""))
           "./data_storage/" "print('ok')" "plot.py" boot);
    reflexivity.
Defined.

(** C9 as stated fails: where [open] refuses a file that is already
    there, a body that touches nothing and always prints "ok" succeeds
    the first time and yields "Error occurred" the second time. *)
Lemma resubmission_differs_when_open_refuses :
  let w := umask_world (Completed 0 "ok" "") in
  let first := execute_code w "./data_storage/" "print('ok')" "plot.py" boot in
  let second := execute_code w "./data_storage/" "print('ok')" "plot.py" (snd first) in
  (∀ fs, fst (spawn w (Argv ["python"; "./data_storage/plot.py"]) fs) = fs)
  ∧ fst first = Returned (success_dict "./data_storage/plot.py" "ok")
  ∧ fst second = Returned (error_dict "./data_storage/plot.py"
                             "[Errno 13] Permission denied")
  ∧ fst second ≠ fst first.
Proof.
  cbn zeta.
  assert (H1 : fst (execute_code (umask_world (Completed 0 "ok" ""))
                      "./data_storage/" "print('ok')" "plot.py" boot)
               = Returned (success_dict "./data_storage/plot.py" "ok"))
    by by vm_compute.
  assert (H2 : fst (execute_code (umask_world (Completed 0 "ok" ""))
                      "./data_storage/" "print('ok')" "plot.py"
                      (snd (execute_code (umask_world (Completed 0 "ok" ""))
                              "./data_storage/" "print('ok')" "plot.py" boot)))
               = Returned (error_dict "./data_storage/plot.py"
                             "[Errno 13] Permission denied"))
    by by vm_compute.
  split; [done |]. split; [exact H1 |]. split; [exact H2 |].
  rewrite H1, H2. intros Heq.
  apply (f_equal (λ r : res py_exc (gmap string string),
                    match r with
                    | Returned d => d !! "result"
                    | Raised _ => None
                    end)) in Heq.
  unfold error_dict, success_dict in Heq. by simplify_map_eq.
Qed.

(** ** The shape of the returned dictionary *)

(** C10. Whatever the input and the platform, [execute_code] returns a
    dictionary whose [result] is one of "Code executed successfully",
    "Failed to execute" and "Error occurred"; the success dictionary has
    exactly the keys result, output and file_path, the two error
    dictionaries exactly result, error and file_path, so there is no
    output key on failure and no stderr or stdout key anywhere.  The
    call returns no dictionary only when the platform raised something
    that is not an [Exception]. *)
Theorem execute_code_result_shape
    (w : World) (storage_path input_code codefile_name : string) (s : OS) :
  match fst (execute_code w storage_path input_code codefile_name s) with
  | Returned d =>
      well_shaped d ∧ d !! "stderr" = None ∧ d !! "stdout" = None
      ∧ (d !! "result" = Some "Code executed successfully" ∨ d !! "output" = None)
  | Raised e => derives_from_Exception (exc_cls e) = false
  end.
Proof.
  assert (Hh : ∀ e s',
    match fst (handled (os_path_join storage_path codefile_name) e s') with
    | Returned d =>
        well_shaped d ∧ d !! "stderr" = None ∧ d !! "stdout" = None
        ∧ (d !! "result" = Some "Code executed successfully" ∨ d !! "output" = None)
    | Raised e' => derives_from_Exception (exc_cls e') = false
    end).
  { intros e s'.
    pose proof (handled_shape (os_path_join storage_path codefile_name) e s') as Hs.
    unfold handled in *.
    destruct (derives_from_Exception (exc_cls e)); cbn in *; [|done].
    repeat split; [done .. | by right]. }
  by_platform w storage_path input_code codefile_name s; try apply Hh; cbn.
  - split; [left; split; [done | apply dom_success_dict] |].
    repeat split; [done .. | by left].
  - split; [right; left; split; [done | apply dom_failure_dict] |].
    repeat split; [done .. | by right].
Qed.

(** * Further properties *)

(** ** [execute_command] *)

(** X1. What [execute_command] gives its caller is decided by
    [subprocess.run] alone. When [subprocess.run] raises (the shell
    could not be started, or its output could not be decoded as text),
    the caller gets that exception, whatever its class: no clause
    catches it. When it has captured the shell's output, the caller gets
    the stdout as it is on exit code 0, and "Error: " with the stderr on
    any other exit code. *)
Theorem execute_command_result
    (w : World) (environ : gmap string string) (command : string) (s : OS) :
  fst (execute_command w environ command s)
  = command_outcome
      (snd (spawn w (Shell (full_command_of environ command) "/bin/bash")
              (files s))).
Proof.
  by_shell w environ command s; cbn [fst snd command_outcome].
  - done.
  - by rewrite bool_decide_eq_true_2.
  - by rewrite bool_decide_eq_false_2.
Qed.

(** X2. The string [execute_command] returns does not tell a failure
    from a success: a shell that exits with a nonzero code and stderr
    [text] and a shell that exits with code 0 after printing "Error: "
    and [text] give the caller the same value. *)
Theorem execute_command_result_ambiguous
    (w1 w2 : World) (environ : gmap string string) (command text : string)
    (s : OS) (fs1 fs2 : FS) (cp1 cp2 : CompletedProcess) :
  spawn w1 (Shell (full_command_of environ command) "/bin/bash") (files s)
  = (fs1, inr cp1) →
  spawn w2 (Shell (full_command_of environ command) "/bin/bash") (files s)
  = (fs2, inr cp2) →
  returncode cp1 ≠ 0 → stderr cp1 = text →
  returncode cp2 = 0 → stdout cp2 = "Error: " +:+ text →
  fst (execute_command w1 environ command s)
  = fst (execute_command w2 environ command s).
Proof.
  intros H1 H2 Hz1 He1 Hz2 Ho2.
  rewrite (execute_command_exit_nonzero _ _ _ _ _ _ H1 Hz1).
  rewrite (execute_command_exit_zero _ _ _ _ _ _ H2 Hz2).
  cbn. by rewrite He1, Ho2.
Qed.

Lemma execute_command_result_ambiguous_witness :
  fst (execute_command (steady_world (Completed 1 "" "disk full"))
         ∅ "make" boot)
  = fst (execute_command (steady_world (Completed 0 "Error: disk full" ""))
           ∅ "make" boot).
Proof.
  apply (execute_command_result_ambiguous
           (steady_world (Completed 1 "" "disk full"))
           (steady_world (Completed 0 "Error: disk full" ""))
           ∅ "make" "disk full" boot empty_fs empty_fs
           (Completed 1 "" "disk full") (Completed 0 "Error: disk full" ""));
    first [reflexivity | cbn; lia].
Defined.

(** X3. [execute_command] touches the store only through its child: the
    store after the call is the one the shell left, on every path. *)
Theorem execute_command_store
    (w : World) (environ : gmap string string) (command : string) (s : OS) :
  files (snd (execute_command w environ command s))
  = fst (spawn w (Shell (full_command_of environ command) "/bin/bash")
           (files s)).
Proof. by by_shell w environ command s. Qed.

(** ** [execute_code]: the result *)

(** X4. Every dictionary [execute_code] returns names the artifact:
    [file_path] is [os.path.join(storage_path, codefile_name)] on the
    success, the failure and the exception branch alike. *)
Theorem execute_code_file_path_field
    (w : World) (storage_path input_code codefile_name : string) (s : OS) :
  match fst (execute_code w storage_path input_code codefile_name s) with
  | Returned d =>
      d !! "file_path" = Some (os_path_join storage_path codefile_name)
  | Raised e => derives_from_Exception (exc_cls e) = false
  end.
Proof.
  by_platform w storage_path input_code codefile_name s;
    try (unfold handled;
         destruct (derives_from_Exception (exc_cls e)) eqn:He; cbn; done);
    done.
Qed.

(** X5. What [except Exception] does not catch reaches the caller: an
    exception raised by [open], [write] or [subprocess.run] whose class
    does not derive from [Exception] is raised by [execute_code] as it
    is, and no dictionary is returned. *)
Theorem execute_code_passes_non_exceptions
    (w : World) (storage_path input_code codefile_name : string) (s : OS)
    (e : py_exc) :
  faults w (os_path_join storage_path codefile_name) input_code (files s) e →
  derives_from_Exception (exc_cls e) = false →
  fst (execute_code w storage_path input_code codefile_name s) = Raised e.
Proof.
  intros Hf He. destruct Hf as [e Ho | e n Ho Hw | fs' e Ho Hw Hr].
  - rewrite (execute_code_open_raises _ _ _ _ _ _ Ho).
    unfold handled. by rewrite He.
  - rewrite (execute_code_write_raises _ _ _ _ _ _ _ Ho Hw).
    unfold handled. by rewrite He.
  - rewrite (execute_code_run_raises _ _ _ _ _ _ _ Ho Hw Hr).
    unfold handled. by rewrite He.
Qed.

Lemma execute_code_passes_non_exceptions_witness :
  fst (execute_code interrupted_world "./data_storage/" "print(1)" "plot.py" boot)
  = Raised (PyExc KeyboardInterrupt "").
Proof.
  apply (execute_code_passes_non_exceptions interrupted_world
           "./data_storage/" "print(1)" "plot.py" boot
           (PyExc KeyboardInterrupt "")).
  - by eapply fault_run.
  - reflexivity.
Defined.

(** X6. The one command [execute_code] ever runs is [python] on the
    artifact path, and only after [open] and [write] raised nothing. *)
Theorem execute_code_command_line
    (w : World) (storage_path input_code codefile_name : string) (s : OS) :
  let path := os_path_join storage_path codefile_name in
  commands_run
    (events_since s (snd (execute_code w storage_path input_code codefile_name s)))
  = match open_fault w path (files s),
          write_fault w path input_code (put_file path "" (files s)) with
    | None, None => [Argv ["python"; path]]
    | _, _ => []
    end.
Proof.
  cbn zeta.
  by_platform w storage_path input_code codefile_name s;
    rewrite ?handled_snd; cbn [snd files trace];
    rewrite <- ?(assoc_L (++)), events_since_mk;
    try destruct (derives_from_Exception (exc_cls _)); done.
Qed.



(** ** [execute_code]: the store *)

(** X8. [execute_code] itself writes one file only: a path that names
    another file than the artifact path does, and that the child process
    leaves as it is, holds after the call what it held before, on every
    path through the call. *)
Theorem execute_code_other_files
    (w : World) (storage_path input_code codefile_name : string) (s : OS)
    (p : string) :
  let path := os_path_join storage_path codefile_name in
  names (files s) p ≠ names (files s) path →
  (∀ fs, read_file (fst (spawn w (Argv ["python"; path]) fs)) p
         = read_file fs p) →
  read_file
    (files (snd (execute_code w storage_path input_code codefile_name s))) p
  = read_file (files s) p.
Proof.
  cbn zeta. intros Hp Hc. rewrite execute_code_files. cbn zeta.
  destruct (open_fault w _ (files s)); [done |].
  destruct (write_fault w _ input_code _) as [[e n]|].
  - by apply read_put_file_other.
  - rewrite Hc. by apply read_put_file_other.
Qed.

Lemma execute_code_other_files_witness :
  read_file
    (files (snd (execute_code (steady_world (Completed 0 "" ""))
                   "./data_storage/" "print(1)" "plot.py"
                   {| files := {| names := plain_names;
                                  contents := {["notes.txt" := "keep"]} |};
                      trace := [] |})))
    "notes.txt"
  = read_file
      (files {| files := {| names := plain_names;
                            contents := {["notes.txt" := "keep"]} |};
                trace := [] |})
      "notes.txt".
Proof.
  apply (execute_code_other_files (steady_world (Completed 0 "" ""))
           "./data_storage/" "print(1)" "plot.py"
           {| files := {| names := plain_names;
                          contents := {["notes.txt" := "keep"]} |};
              trace := [] |} "notes.txt").
  - discriminate.
  - reflexivity.
Defined.

(** X9. When [open] raises, the call changes nothing in the store: an
    artifact of an earlier submission is still what it was. *)
Theorem execute_code_open_fault_keeps_store
    (w : World) (storage_path input_code codefile_name : string) (s : OS)
    (e : py_exc) :
  open_fault w (os_path_join storage_path codefile_name) (files s) = Some e →
  files (snd (execute_code w storage_path input_code codefile_name s))
  = files s.
Proof. intros Ho. rewrite execute_code_files. cbn zeta. by rewrite Ho. Qed.

Lemma execute_code_open_fault_keeps_store_witness :
  files (snd (execute_code (readonly_world (Completed 0 "" ""))
                "./data_storage/" "print(1)" "plot.py"
                {| files := put_file "./data_storage/plot.py" "x = 1" empty_fs;
                   trace := [] |}))
  = files {| files := put_file "./data_storage/plot.py" "x = 1" empty_fs;
             trace := [] |}.
Proof.
  apply (execute_code_open_fault_keeps_store
           (readonly_world (Completed 0 "" "")) "./data_storage/"
           "print(1)" "plot.py"
           {| files := put_file "./data_storage/plot.py" "x = 1" empty_fs;
              trace := [] |}
           (PyExc PermissionError "[Errno 13] Permission denied")).
  reflexivity.
Defined.

(** X10. When [open] passes on a regular file and [write] raises, the
    artifact holds the characters of the new body written before the
    fault, a prefix of it: what an earlier submission had put there is
    lost, and no child is run. *)
Theorem execute_code_write_fault_truncates
    (w : World) (storage_path input_code codefile_name : string) (s : OS)
    (e : py_exc) (n : nat) :
  let path := os_path_join storage_path codefile_name in
  let s' := snd (execute_code w storage_path input_code codefile_name s) in
  is_Some (names (files s) path) →
  open_fault w path (files s) = None →
  write_fault w path input_code (put_file path "" (files s)) = Some (e, n) →
  files s' = put_file path (substring 0 n input_code) (files s)
  ∧ read_file (files s') path = Some (substring 0 n input_code)
  ∧ runs_of (events_since s s') = 0%nat.
Proof.
  cbn zeta. intros Hn Ho Hw.
  destruct (execute_code_calls w storage_path input_code codefile_name s)
    as [_ Hr].
  cbn zeta in Hr. rewrite Hr. unfold expected_runs. rewrite Ho, Hw.
  rewrite execute_code_files. cbn zeta. rewrite Ho, Hw.
  by rewrite read_put_file.
Qed.

Lemma execute_code_write_fault_truncates_witness :
  let w := quota_world 8 (Completed 0 "" "") in
  let path := os_path_join "./data_storage/" "plot.py" in
  let s := {| files := put_file "./data_storage/plot.py" "x = 1" empty_fs;
              trace := [] |} in
  let s' := snd (execute_code w "./data_storage/" "print('hello')" "plot.py" s) in
  files s' = put_file path (substring 0 8 "print('hello')") (files s)
  ∧ read_file (files s') path = Some (substring 0 8 "print('hello')")
  ∧ runs_of (events_since s s') = 0%nat.
Proof.
  apply (execute_code_write_fault_truncates
           (quota_world 8 (Completed 0 "" "")) "./data_storage/"
           "print('hello')" "plot.py"
           {| files := put_file "./data_storage/plot.py" "x = 1" empty_fs;
              trace := [] |}
           (PyExc OSError "[Errno 28] No space left on device") 8);
    first [reflexivity | by eexists].
Defined.

(** ** The artifact path *)

(** X11. A name that starts with the separator leaves the storage
    directory: [open] gets the name itself as the path, and the whole
    call, its result and its effects, does not depend on [storage_path]. *)
Theorem execute_code_absolute_name
    (w : World) (root1 root2 input_code codefile_name : string) (s : OS) :
  startswith_sep codefile_name = true →
  os_path_join root1 codefile_name = codefile_name
  ∧ execute_code w root1 input_code codefile_name s
    = execute_code w root2 input_code codefile_name s.
Proof.
  intros Hn.
  assert (Hj : ∀ root, os_path_join root codefile_name = codefile_name).
  { intros root. unfold os_path_join. by rewrite Hn. }
  split; [apply Hj |].
  unfold execute_code. by rewrite !Hj.
Qed.

Lemma execute_code_absolute_name_witness :
  os_path_join "./data_storage/" "/etc/cron.d/job" = "/etc/cron.d/job"
  ∧ execute_code (steady_world (Completed 0 "" "")) "./data_storage/"
      "print(1)" "/etc/cron.d/job" boot
    = execute_code (steady_world (Completed 0 "" "")) "/srv/artifacts"
        "print(1)" "/etc/cron.d/job" boot.
Proof.
  apply (execute_code_absolute_name (steady_world (Completed 0 "" ""))
           "./data_storage/" "/srv/artifacts" "print(1)" "/etc/cron.d/job" boot).
  reflexivity.
Defined.

Lemma os_path_join_relative_inj_aux (root name1 name2 : string) :
  startswith_sep name1 = false →
  startswith_sep name2 = false →
  os_path_join root name1 = os_path_join root name2 →
  name1 = name2.
Proof.
  intros H1 H2. unfold os_path_join. rewrite H1, H2.
  destruct (bool_decide (root = "") || endswith_sep root); intros Hj.
  - by apply (string_app_inj_l root).
  - apply (string_app_inj_l "/"), (string_app_inj_l root), Hj.
Qed.

(** X12. Two names that do not start with the separator and differ are
    given different artifact paths under the same storage path. *)
Theorem os_path_join_relative_inj (root name1 name2 : string) :
  startswith_sep name1 = false →
  startswith_sep name2 = false →
  name1 ≠ name2 →
  os_path_join root name1 ≠ os_path_join root name2.
Proof.
  intros H1 H2 Hne Hj. apply Hne.
  by apply (os_path_join_relative_inj_aux root).
Qed.

Lemma os_path_join_relative_inj_witness :
  os_path_join "./data_storage/" "plot.py"
  ≠ os_path_join "./data_storage/" "table.py".
Proof.
  apply (os_path_join_relative_inj "./data_storage/" "plot.py" "table.py");
    [reflexivity | reflexivity | discriminate].
Defined.

(** X13. Artifacts that are different files live side by side: after a
    submission under [name1] and then one under [name2], when the two
    artifact paths name different files, the first artifact is in place,
    the second path names a regular file, the second [open] and [write]
    raise nothing and the second child leaves the file system as it is,
    both paths hold their own body. *)
Theorem submissions_under_two_names
    (w : World) (storage_path name1 name2 body1 body2 : string) (s : OS) :
  let path1 := os_path_join storage_path name1 in
  let path2 := os_path_join storage_path name2 in
  let s1 := snd (execute_code w storage_path body1 name1 s) in
  let s2 := snd (execute_code w storage_path body2 name2 s1) in
  names (files s1) path1 ≠ names (files s1) path2 →
  is_Some (names (files s1) path2) →
  read_file (files s1) path1 = Some body1 →
  open_fault w path2 (files s1) = None →
  write_fault w path2 body2 (put_file path2 "" (files s1)) = None →
  (∀ fs, fst (spawn w (Argv ["python"; path2]) fs) = fs) →
  read_file (files s2) path1 = Some body1
  ∧ read_file (files s2) path2 = Some body2.
Proof.
  cbn zeta. intros Hne Hn Hf1 Ho Hw Hc.
  rewrite (execute_code_files w storage_path body2 name2). cbn zeta.
  rewrite Ho, Hw, Hc. split.
  - by rewrite read_put_file_other.
  - by apply read_put_file.
Qed.

Lemma submissions_under_two_names_witness :
  let w := steady_world (Completed 0 "" "") in
  let s1 := snd (execute_code w "./data_storage/" "x = 1" "plot.py" boot) in
  let s2 := snd (execute_code w "./data_storage/" "y = 2" "table.py" s1) in
  read_file (files s2) (os_path_join "./data_storage/" "plot.py") = Some "x = 1"
  ∧ read_file (files s2) (os_path_join "./data_storage/" "table.py")
    = Some "y = 2".
Proof.
  apply (submissions_under_two_names (steady_world (Completed 0 "" ""))
           "./data_storage/" "plot.py" "table.py" "x = 1" "y = 2" boot);
    first [reflexivity | discriminate | by eexists].
Defined.

(** ** Importing the module *)

(** X14. The storage path is settled when the module is imported: the
    value of [STORAGE_PATH] in the process environment if it is set
    (the empty string included), otherwise its value in the [.env] file,
    otherwise "./data_storage/". *)
Theorem storage_path_precedence (dotenv environ : gmap string string) :
  init_storage_path (load_dotenv dotenv environ)
  = match environ !! "STORAGE_PATH" with
    | Some v => v
    | None =>
        match dotenv !! "STORAGE_PATH" with
        | Some v => v
        | None => "./data_storage/"
        end
    end.
Proof.
  unfold init_storage_path, os_getenv, load_dotenv.
  rewrite lookup_union.
  destruct (environ !! "STORAGE_PATH"), (dotenv !! "STORAGE_PATH"); done.
Qed.

Lemma module_import_storage_aux
    (makedirs : string → gset string → gset string * option py_exc)
    (dotenv environ : gmap string string) (d : Disk) :
  let storage_path := init_storage_path (load_dotenv dotenv environ) in
  match module_import makedirs dotenv environ d with
  | (Returned p, d') =>
      p = storage_path ∧ os_path_exists d' p = true
      ∧ existing d ⊆ existing d'
  | (Raised e, d') =>
      os_path_exists d storage_path = false
      ∧ disk_log d' = disk_log d ∧ existing d ⊆ existing d'
  end.
Proof.
  cbn zeta. unfold module_import.
  destruct (os_path_exists d _) eqn:Hex; [done |].
  unfold os_makedirs.
  destruct (decide (init_storage_path (load_dotenv dotenv environ) = ""))
    as [He|He].
  - rewrite bool_decide_eq_true_2 by done. done.
  - rewrite bool_decide_eq_false_2 by done.
    destruct (makedirs _ (existing d)) as [created [e|]]; cbn.
    + repeat split. apply union_subseteq_r.
    + repeat split.
      * unfold os_path_exists. cbn.
        rewrite !bool_decide_eq_true_2; [done | | done].
        apply elem_of_union_l, elem_of_union_l. by apply elem_of_singleton.
      * apply union_subseteq_r.
Qed.


(** X16. Importing the module again after an import that returned
    creates nothing: [os.makedirs] is not called, the same storage path
    is returned, and the log gets the one entry of line 124. *)
Theorem module_import_again
    (makedirs_fault makedirs_fault'
       : string → gset string → gset string * option py_exc)
    (dotenv environ : gmap string string) (d d1 : Disk) (p : string) :
  module_import makedirs_fault dotenv environ d = (Returned p, d1) →
  module_import makedirs_fault' dotenv environ d1
  = (Returned p,
     {| existing := existing d1;
        disk_log := disk_log d1
          ++ [EvLog "INFO" "Module initialized successfully"] |}).
Proof.
  intros H1.
  pose proof (module_import_storage_aux makedirs_fault dotenv environ d) as Hs.
  rewrite H1 in Hs. destruct Hs as (-> & Hin & _).
  unfold module_import. by rewrite Hin.
Qed.

Lemma module_import_again_witness :
  module_import makedirs_ok ∅ ∅ (snd (module_import makedirs_ok ∅ ∅ fresh_disk))
  = (Returned "./data_storage/",
     {| existing := existing (snd (module_import makedirs_ok ∅ ∅ fresh_disk));
        disk_log := disk_log (snd (module_import makedirs_ok ∅ ∅ fresh_disk))
          ++ [EvLog "INFO" "Module initialized successfully"] |}).
Proof.
  apply (module_import_again makedirs_ok makedirs_ok ∅ ∅ fresh_disk).
  reflexivity.
Defined.
